(** * verify_home.py: the home-page verification script

    A shallow embedding of [src/verify_home.py] and the properties of its
    control flow: which errors are swallowed, which reach the failure
    handler, when the browser is closed and which screenshot is written.

    The script drives a browser through Playwright.  The browser and the
    page under test are outside the program, so they are modelled as a
    [world]: what each locator shows when it is checked, and which
    collaborator calls raise on their own account.  The script itself
    is a computation in a small log-and-exception monad whose
    [try_except], [try_finally] and [with_scope] follow Python's
    statements of the same shape. *)

From Stdlib Require Import String List ZArith Bool.
Import ListNotations.
Open Scope string_scope.
Open Scope list_scope.

(** ** Python exceptions *)

Module Py.

(** The classes that matter to the script's handlers.  The first four
    derive from [Exception]; the last three derive from [BaseException]
    only. *)
Inductive exn_class : Type :=
| TimeoutError
| AssertionError
| PlaywrightError
| OSError
| KeyboardInterrupt
| SystemExit (code : Z)
| GeneratorExit.

Record exn : Type := mkExn { exn_cls : exn_class; exn_msg : string }.

(** [isinstance(e, Exception)], the test of [except Exception as e]. *)
Definition is_Exception (e : exn) : bool :=
  match exn_cls e with
  | KeyboardInterrupt | SystemExit _ | GeneratorExit => false
  | TimeoutError | AssertionError | PlaywrightError | OSError => true
  end.

(** [str(e)], as interpolated by the f-string of the handler. *)
Definition str (e : exn) : string := exn_msg e.

Inductive result (A : Type) : Type :=
| Ok (a : A)
| Raise (e : exn).

Arguments Ok {A} a.
Arguments Raise {A} e.

End Py.

Import Py.

(** ** The browser-automation collaborator *)

Inductive locator : Type :=
| ByRole (role name : string)
| ByText (text : string).

(** What a locator resolves to when a check looks at it (within the
    timeout of that check). *)
Inductive visibility : Type := Absent | Hidden | Visible.

Definition is_visible (v : visibility) : bool :=
  match v with Visible => true | Absent | Hidden => false end.

Inductive wait_state : Type :=
| StateVisible | StateHidden | StateAttached | StateDetached.

(** The collaborator calls the script makes, with their arguments. *)
Inductive op : Type :=
| OpEnter                                           (* with sync_playwright() as p *)
| OpLaunch (headless : bool)                        (* p.chromium.launch *)
| OpNewContext                                      (* browser.new_context *)
| OpNewPage                                         (* context.new_page *)
| OpGoto (url : string)                             (* page.goto *)
| OpWaitFor (l : locator) (st : wait_state) (timeout : Z)
| OpClick (l : locator)
| OpToBeVisible (l : locator) (timeout : option Z)  (* expect(l).to_be_visible *)
| OpNotToBeVisible (l : locator)                    (* expect(l).not_to_be_visible *)
| OpScreenshot (path : string) (full_page : bool)   (* page.screenshot *)
| OpClose                                           (* browser.close *)
| OpExit.                                           (* leaving the with block *)

(** One run's environment.  [observe] is the state of the page under
    test; [fault] injects an error of the collaborator's own into a call
    (navigation failure, browser crash, interrupt). *)
Record world : Type := mkWorld {
  observe : locator -> visibility;
  fault : op -> option exn
}.

Definition timeout_error : exn :=
  mkExn TimeoutError "Timeout exceeded while waiting for locator".
Definition expected_visible : exn :=
  mkExn AssertionError "Locator expected to be visible".
Definition expected_not_visible : exn :=
  mkExn AssertionError "Locator expected not to be visible".

Definition state_reached (st : wait_state) (v : visibility) : bool :=
  match st, v with
  | StateVisible, Visible => true
  | StateVisible, _ => false
  | StateHidden, Visible => false
  | StateHidden, _ => true
  | StateAttached, Absent => false
  | StateAttached, _ => true
  | StateDetached, Absent => true
  | StateDetached, _ => false
  end.

(** Modelled from the spec: the collaborator's own code (Playwright) is
    not part of the repository.  A wait fails with a timeout error when
    the awaited state is not reached; a visibility assertion holds of an
    element that exists and is not hidden; its negation holds of an
    element that does not exist or is hidden.  Every other call
    completes unless a fault is injected. *)
Definition page_response (w : world) (o : op) : option exn :=
  match o with
  | OpWaitFor l st _ =>
      if state_reached st (observe w l) then None else Some timeout_error
  | OpToBeVisible l _ =>
      if is_visible (observe w l) then None else Some expected_visible
  | OpNotToBeVisible l =>
      if is_visible (observe w l) then Some expected_not_visible else None
  | _ => None
  end.

(** The error a call raises, if any. *)
Definition respond (w : world) (o : op) : option exn :=
  match fault w o with
  | Some e => Some e
  | None => page_response w o
  end.

(** ** Log-and-exception monad *)

Inductive event : Type :=
| Stdout (line : string)
| Call (o : op) (raised : option exn).

Definition trace : Type := list event.

Definition M (A : Type) : Type := (trace * result A)%type.

Definition ret {A} (a : A) : M A := ([], Ok a).

Definition bind {A B} (m : M A) (k : A -> M B) : M B :=
  match m with
  | (t, Ok a) => let '(t', r) := k a in (t ++ t', r)
  | (t, Raise e) => (t, Raise e)
  end.

Notation "m ;; k" := (bind m (fun _ => k))
  (at level 61, right associativity).

Definition raise {A} (e : exn) : M A := ([], Raise e).

(** [print] writes a line to standard output; it is taken not to fail. *)
Definition print (s : string) : M unit := ([Stdout s], Ok tt).

Definition call (w : world) (o : op) : M unit :=
  match respond w o with
  | None => ([Call o None], Ok tt)
  | Some e => ([Call o (Some e)], Raise e)
  end.

(** [try: body  except <catches> as e: handler e].  A bare [except:]
    catches every class. *)
Definition try_except {A} (body : M A) (catches : exn -> bool)
    (handler : exn -> M A) : M A :=
  match body with
  | (t, Ok a) => (t, Ok a)
  | (t, Raise e) =>
      if catches e
      then let '(t', r) := handler e in (t ++ t', r)
      else (t, Raise e)
  end.

(** [try: body  finally: fin].  An error of [fin] replaces the pending
    one. *)
Definition try_finally {A} (body : M A) (fin : M unit) : M A :=
  match body, fin with
  | (t, r), (t', Ok _) => (t ++ t', r)
  | (t, _), (t', Raise e') => (t ++ t', Raise e')
  end.

(** [with cm: body] for a manager whose exit does not swallow errors:
    the body runs only if entering succeeds, and the exit always runs
    once it did. *)
Definition with_scope {A} (enter leave : M unit) (body : M A) : M A :=
  enter ;; try_finally body leave.

(** ** The script *)

Definition home_url : string := "http://localhost:3000".
Definition start_btn : locator := ByRole "button" "Start Learning".
Definition heading : locator := ByRole "heading" "Welcome to Jubee's World!".
Definition removed_text : locator := ByText "Apple-smooth journey, kid-first".
Definition home_png : string := "verification_home.png".
Definition error_png : string := "verification_error.png".

Definition op_wait : op := OpWaitFor start_btn StateVisible 5000.
Definition op_click : op := OpClick start_btn.
Definition op_heading : op := OpToBeVisible heading (Some 15000%Z).
Definition op_text : op := OpNotToBeVisible removed_text.
Definition op_home_shot : op := OpScreenshot home_png true.
Definition op_error_shot : op := OpScreenshot error_png true.

Definition failed_line (e : exn) : string := String.append "Verification failed: " (str e).

Section Script.

Variable w : world.

(** Lines 15-21: the optional landing page. *)
Definition landing_step : M unit :=
  try_except
    (call w op_wait ;;
     print "Landing page detected. Clicking 'Start Learning'..." ;;
     call w op_click)
    (fun _ => true)
    (fun _ =>
       print "Landing page not detected (or button missing), assuming Home page...").

(** Lines 10-35: the body of the outer [try]. *)
Definition main_sequence : M unit :=
  print "Navigating to home page..." ;;
  call w (OpGoto home_url) ;;
  landing_step ;;
  print "Waiting for Home page content..." ;;
  call w op_heading ;;
  print "Verifying text removal..." ;;
  call w op_text ;;
  print "Taking screenshot..." ;;
  call w op_home_shot ;;
  print "Verification complete.".

(** Lines 37-40: [except Exception as e]. *)
Definition failure_handler (e : exn) : M unit :=
  print (failed_line e) ;;
  call w op_error_shot ;;
  raise e.

(** Lines 9-42: [try / except Exception / finally]. *)
Definition guarded : M unit :=
  try_finally
    (try_except main_sequence is_Exception failure_handler)
    (call w OpClose).

(** Lines 5-7: browser, context and page, acquired before the [try]. *)
Definition acquire : M unit :=
  call w (OpLaunch true) ;;
  call w OpNewContext ;;
  call w OpNewPage.

Definition verify_home_text_removed : M unit :=
  with_scope (call w OpEnter) (call w OpExit)
    (acquire ;; guarded).

End Script.

(** Lines 44-45: the script run as a program.  The call stands at top
    level with no handler around it, so the program ends the way the
    run ends.  The status the interpreter then reports is not the
    script's doing: it is a parameter. *)
Definition main (status : result unit -> Z) (w : world) : Z :=
  status (snd (verify_home_text_removed w)).

Arguments respond : simpl never.

(** ** Observations on a trace *)

Definition is_call_of (p : op -> bool) (ev : event) : bool :=
  match ev with Call o _ => p o | Stdout _ => false end.

Definition is_close (o : op) : bool :=
  match o with OpClose => true | _ => false end.
Definition is_exit (o : op) : bool :=
  match o with OpExit => true | _ => false end.
Definition is_click (o : op) : bool :=
  match o with OpClick _ => true | _ => false end.
Definition is_heading_check (o : op) : bool :=
  match o with OpToBeVisible _ _ => true | _ => false end.

(** Number of calls of a kind, whatever their outcome. *)
Definition count_calls (p : op -> bool) (t : trace) : nat :=
  length (filter (is_call_of p) t).

(** A line was printed. *)
Definition printed (s : string) (t : trace) : bool :=
  existsb (fun ev => match ev with Stdout l => String.eqb l s | _ => false end) t.

(** A screenshot call to [path] returned: the file is on disk. *)
Definition written (path : string) (t : trace) : bool :=
  existsb (fun ev =>
             match ev with
             | Call (OpScreenshot p _) None => String.eqb p path
             | _ => false
             end) t.

(** Some line of the failure handler was printed. *)
Definition failure_logged (t : trace) : bool :=
  existsb (fun ev =>
             match ev with
             | Stdout l => String.prefix "Verification failed: " l
             | _ => false
             end) t.

(** Every event satisfying [q] comes after the first one satisfying
    [p], and there is one of each. *)
Fixpoint after_first (p : event -> bool) (t : trace) : option trace :=
  match t with
  | [] => None
  | ev :: t' => if p ev then Some t' else after_first p t'
  end.

Definition all_after (p q : event -> bool) (t : trace) : bool :=
  match after_first p t with
  | None => false
  | Some rest =>
      existsb q rest && negb (existsb q (firstn (length t - length rest) t))
  end.

(** ** Sample worlds *)

Definition no_fault : op -> option exn := fun _ => None.

Definition page (btn hd txt : visibility) : locator -> visibility :=
  fun l =>
    match l with
    | ByRole "button" _ => btn
    | ByRole _ _ => hd
    | ByText _ => txt
    end.

(** Landing page first, then the home page without the removed text. *)
Definition w_landing : world := mkWorld (page Visible Visible Absent) no_fault.
(** Home page directly. *)
Definition w_home : world := mkWorld (page Absent Visible Hidden) no_fault.
(** The removed text is still shown. *)
Definition w_text_shown : world := mkWorld (page Absent Visible Visible) no_fault.
(** The heading never shows. *)
Definition w_no_heading : world := mkWorld (page Absent Hidden Absent) no_fault.

Definition refused : exn := mkExn PlaywrightError "net::ERR_CONNECTION_REFUSED".
Definition crash : exn := mkExn PlaywrightError "Target page, context or browser has been closed".
Definition interrupt : exn := mkExn KeyboardInterrupt "".

(** The click on the landing button fails. *)
Definition w_click_fails : world :=
  mkWorld (page Visible Visible Absent)
          (fun o => match o with OpClick _ => Some crash | _ => None end).
(** The browsing context cannot be created. *)
Definition w_no_context : world :=
  mkWorld (page Visible Visible Absent)
          (fun o => match o with OpNewContext => Some crash | _ => None end).
(** Navigation is interrupted from the keyboard. *)
Definition w_interrupted : world :=
  mkWorld (page Visible Visible Absent)
          (fun o => match o with OpGoto _ => Some interrupt | _ => None end).
(** Navigation fails. *)
Definition w_unreachable : world :=
  mkWorld (page Visible Visible Absent)
          (fun o => match o with OpGoto _ => Some refused | _ => None end).
(** Navigation fails and the browser is gone when the handler asks for
    its screenshot. *)
Definition w_crashed : world :=
  mkWorld (page Visible Visible Absent)
          (fun o =>
             match o with
             | OpGoto _ => Some refused
             | OpScreenshot _ _ => Some crash
             | _ => None
             end).

(** The heading never shows, and the browser is gone when the handler
    asks for its screenshot. *)
Definition w_no_heading_crashed : world :=
  mkWorld (page Absent Hidden Absent)
          (fun o => match o with OpScreenshot _ _ => Some crash | _ => None end).

(** An interpreter that reports 0 for a normal end and 1 for an error
    left uncaught. *)
Definition sample_status (r : result unit) : Z :=
  match r with Ok _ => 0 | Raise _ => 1 end.

(** ** Conditions on a run *)

(** The [with] block was entered and the browser launched. *)
Definition launched (w : world) : Prop :=
  respond w OpEnter = None /\ respond w (OpLaunch true) = None.

(** Browser, context and page were acquired: the [try] is entered. *)
Definition page_acquired (w : world) : Prop :=
  launched w /\ respond w OpNewContext = None /\ respond w OpNewPage = None.

(** The page was acquired and navigation returned: the landing step is
    reached. *)
Definition navigated (w : world) : Prop :=
  page_acquired w /\ respond w (OpGoto home_url) = None.

(** [browser.close()] and the exit of the [with] block return. *)
Definition cleanup_completes (w : world) : Prop :=
  respond w OpClose = None /\ respond w OpExit = None.

Definition is_landing_op (o : op) : bool :=
  match o with OpWaitFor _ _ _ | OpClick _ => true | _ => false end.

(** The collaborator raises nothing of its own outside the optional
    landing step: what happens depends on the page alone. *)
Definition steady (w : world) : Prop :=
  forall o, is_landing_op o = false -> fault w o = None.

(** The calls of the main sequence outside the landing step. *)
Definition main_steps : list op :=
  [OpGoto home_url; op_heading; op_text; op_home_shot].

Definition landing_missed : string :=
  "Landing page not detected (or button missing), assuming Home page...".

(** ** Closed forms of the run *)

(** The first of a list of calls to raise decides the outcome. *)
Fixpoint first_raise (w : world) (ops : list op) : result unit :=
  match ops with
  | [] => Ok tt
  | o :: ops' =>
      match respond w o with
      | Some e => Raise e
      | None => first_raise w ops'
      end
  end.

(** What the [except Exception] clause adds to the trace. *)
Definition handler_trace (w : world) : trace :=
  match snd (main_sequence w) with
  | Ok _ => []
  | Raise e =>
      if is_Exception e
      then [Stdout (failed_line e); Call op_error_shot (respond w op_error_shot)]
      else []
  end.

(** What leaves the [except Exception] clause. *)
Definition handled_outcome (w : world) : result unit :=
  match snd (main_sequence w) with
  | Ok a => Ok a
  | Raise e =>
      if is_Exception e
      then match respond w op_error_shot with
           | Some e' => Raise e'
           | None => Raise e
           end
      else Raise e
  end.

(** The calls that precede the [try]. *)
Definition acquired_prefix : trace :=
  [Call OpEnter None; Call (OpLaunch true) None;
   Call OpNewContext None; Call OpNewPage None].

(** What follows the heading check in the main sequence. *)
Definition after_heading (w : world) : trace :=
  match respond w op_heading with
  | Some _ => []
  | None =>
      Stdout "Verifying text removal..." ::
      Call op_text (respond w op_text) ::
      match respond w op_text with
      | Some _ => []
      | None =>
          Stdout "Taking screenshot..." ::
          Call op_home_shot (respond w op_home_shot) ::
          match respond w op_home_shot with
          | Some _ => []
          | None => [Stdout "Verification complete."]
          end
      end
  end.

Definition waiting_line : string := "Waiting for Home page content...".

(** ** Further observations *)

(** The collaborator calls of a trace, in order. *)
Fixpoint calls (t : trace) : list op :=
  match t with
  | [] => []
  | Call o _ :: t' => o :: calls t'
  | Stdout _ :: t' => calls t'
  end.

(** The calls a normal run depends on: everything but the landing
    step. *)
Definition required_steps : list op :=
  [OpEnter; OpLaunch true; OpNewContext; OpNewPage; OpGoto home_url;
   op_heading; op_text; op_home_shot; OpClose; OpExit].

(** Two worlds that answer alike outside the landing step. *)
Definition agree_outside_landing (w1 w2 : world) : Prop :=
  forall o, is_landing_op o = false -> respond w1 o = respond w2 o.

Definition landing_detected : string :=
  "Landing page detected. Clicking 'Start Learning'...".

(** Events of the frame around the main sequence: acquisition, the
    failure handler, the release. *)
Definition is_frame_event (ev : event) : bool :=
  match ev with
  | Stdout l => String.prefix "Verification failed: " l
  | Call (OpScreenshot p _) _ => String.eqb p error_png
  | Call (OpEnter | OpLaunch _ | OpNewContext | OpNewPage | OpClose | OpExit) _ =>
      true
  | Call _ _ => false
  end.

(** Every check passes, and closing the browser fails. *)
Definition w_close_fails : world :=
  mkWorld (page Absent Visible Absent)
          (fun o => match o with OpClose => Some crash | _ => None end).
(** The browser cannot be launched. *)
Definition w_no_launch : world :=
  mkWorld (page Absent Visible Absent)
          (fun o => match o with OpLaunch _ => Some crash | _ => None end).
(** Playwright itself cannot be started. *)
Definition w_no_playwright : world :=
  mkWorld (page Absent Visible Absent)
          (fun o => match o with OpEnter => Some crash | _ => None end).

(** ** The monad, by projections

    Every statement below is about the outcome [snd] or the trace [fst]
    of a run, so the combinators are characterised on each. *)

Section Projections.

Context {A B : Type}.

Lemma snd_bind (m : M A) (k : A -> M B) :
  snd (bind m k) =
  match snd m with Ok a => snd (k a) | Raise e => Raise e end.
Proof. destruct m as [t [a | e]]; simpl; [destruct (k a) |]; reflexivity. Qed.

Lemma fst_bind (m : M A) (k : A -> M B) :
  fst (bind m k) =
  fst m ++ match snd m with Ok a => fst (k a) | Raise _ => [] end.
Proof.
  destruct m as [t [a | e]]; simpl; [destruct (k a) | rewrite app_nil_r];
    reflexivity.
Qed.

Lemma snd_try_except (body : M A) (c : exn -> bool) (h : exn -> M A) :
  snd (try_except body c h) =
  match snd body with
  | Ok a => Ok a
  | Raise e => if c e then snd (h e) else Raise e
  end.
Proof.
  destruct body as [t [a | e]]; simpl; [reflexivity |].
  destruct (c e); [destruct (h e) |]; reflexivity.
Qed.

Lemma fst_try_except (body : M A) (c : exn -> bool) (h : exn -> M A) :
  fst (try_except body c h) =
  fst body ++
  match snd body with
  | Ok _ => []
  | Raise e => if c e then fst (h e) else []
  end.
Proof.
  destruct body as [t [a | e]]; simpl; [now rewrite app_nil_r |].
  destruct (c e); [destruct (h e) | rewrite app_nil_r]; reflexivity.
Qed.

Lemma snd_try_finally (body : M A) (fin : M unit) :
  snd (try_finally body fin) =
  match snd fin with Ok _ => snd body | Raise e' => Raise e' end.
Proof. destruct body as [t r], fin as [t' [u | e']]; reflexivity. Qed.

Lemma fst_try_finally (body : M A) (fin : M unit) :
  fst (try_finally body fin) = fst body ++ fst fin.
Proof. destruct body as [t r], fin as [t' [u | e']]; reflexivity. Qed.

End Projections.

Lemma snd_call w o :
  snd (call w o) = match respond w o with None => Ok tt | Some e => Raise e end.
Proof. unfold call; destruct (respond w o); reflexivity. Qed.

Lemma fst_call w o : fst (call w o) = [Call o (respond w o)].
Proof. unfold call; destruct (respond w o); reflexivity. Qed.

Lemma snd_print s : snd (print s) = Ok tt.
Proof. reflexivity. Qed.

Lemma fst_print s : fst (print s) = [Stdout s].
Proof. reflexivity. Qed.

Lemma snd_raise (e : exn) : snd (@raise unit e) = Raise e.
Proof. reflexivity. Qed.

Lemma fst_raise (e : exn) : fst (@raise unit e) = [].
Proof. reflexivity. Qed.

Create Rewrite HintDb run.
#[export] Hint Rewrite
  @snd_bind @fst_bind @snd_try_except @fst_try_except
  @snd_try_finally @fst_try_finally
  snd_call fst_call snd_print fst_print snd_raise fst_raise : run.

(** Unfold the script down to the collaborator's responses. *)
Ltac script :=
  unfold verify_home_text_removed, with_scope, acquire, guarded,
    failure_handler, main_sequence, landing_step in *;
  autorewrite with run in *.

(** Split on the next response the goal is waiting for. *)
Ltac next_response :=
  match goal with
  | |- context [match respond ?w ?o with _ => _ end] =>
      let E := fresh "E" in destruct (respond w o) eqn:E; cbn -[respond String.eqb String.prefix] in *
  end.

Ltac responses := repeat next_response.

Ltac use_acquired H :=
  let Hen := fresh "Hen" in let Hla := fresh "Hla" in
  let Hcx := fresh "Hcx" in let Hpg := fresh "Hpg" in
  destruct H as [[Hen Hla] [Hcx Hpg]].

(** ** The landing step *)

(** The bare [except:] leaves nothing to propagate. *)
Lemma landing_step_ok w : snd (landing_step w) = Ok tt.
Proof. script. responses; reflexivity. Qed.

Lemma landing_trace w :
  fst (landing_step w) =
  Call op_wait (respond w op_wait) ::
  match respond w op_wait with
  | Some _ => [Stdout landing_missed]
  | None =>
      Stdout "Landing page detected. Clicking 'Start Learning'..." ::
      Call op_click (respond w op_click) ::
      match respond w op_click with
      | Some _ => [Stdout landing_missed]
      | None => []
      end
  end.
Proof. script. responses; reflexivity. Qed.

(** The wait returns exactly when the button shows and no fault hits. *)
Lemma wait_returns_iff w :
  respond w op_wait = None <->
  observe w start_btn = Visible /\ fault w op_wait = None.
Proof.
  unfold respond. destruct (fault w op_wait); simpl.
  - split; [discriminate | intros [_ H]; discriminate].
  - destruct (observe w start_btn); simpl; split; try discriminate; auto;
      intros [H _]; discriminate.
Qed.

(** ** The main sequence *)

Lemma main_outcome w : snd (main_sequence w) = first_raise w main_steps.
Proof.
  pose proof (landing_step_ok w) as Hl. unfold landing_step in Hl.
  script. simpl. destruct (respond w (OpGoto home_url)); [reflexivity |].
  autorewrite with run in Hl. rewrite Hl.
  responses; reflexivity.
Qed.

Lemma first_raise_source w ops e :
  first_raise w ops = Raise e -> exists o, In o ops /\ respond w o = Some e.
Proof.
  induction ops as [| o ops IH]; simpl; [discriminate |].
  destruct (respond w o) as [e' |] eqn:E.
  - intros [= ->]. exists o; auto.
  - intros H. destruct (IH H) as (o' & Hin & Ho'). exists o'; auto.
Qed.

(** An error leaving the main sequence was raised by navigation, by one
    of the two assertions or by the success screenshot. *)
Lemma main_raise_source w e :
  snd (main_sequence w) = Raise e ->
  exists o, In o main_steps /\ respond w o = Some e.
Proof. rewrite main_outcome. apply first_raise_source. Qed.

(** ** The handler and the release *)

Lemma guarded_trace w :
  fst (guarded w) =
  fst (main_sequence w) ++ handler_trace w ++ [Call OpClose (respond w OpClose)].
Proof.
  unfold guarded, handler_trace, failure_handler. autorewrite with run.
  rewrite <- app_assoc.
  destruct (snd (main_sequence w)) as [a | e]; [reflexivity |].
  destruct (is_Exception e); [| reflexivity].
  autorewrite with run.
  destruct (respond w op_error_shot); reflexivity.
Qed.

Lemma guarded_outcome w :
  snd (guarded w) =
  match respond w OpClose with
  | Some e' => Raise e'
  | None => handled_outcome w
  end.
Proof.
  unfold guarded, handled_outcome, failure_handler. autorewrite with run.
  destruct (respond w OpClose); [reflexivity |].
  destruct (snd (main_sequence w)) as [a | e]; [reflexivity |].
  destruct (is_Exception e); [| reflexivity].
  autorewrite with run.
  destruct (respond w op_error_shot); reflexivity.
Qed.

Lemma run_trace w :
  page_acquired w ->
  fst (verify_home_text_removed w) =
  acquired_prefix ++ fst (guarded w) ++ [Call OpExit (respond w OpExit)].
Proof.
  intros H. use_acquired H.
  unfold verify_home_text_removed, with_scope, acquire.
  autorewrite with run. rewrite Hen, Hla, Hcx, Hpg. simpl.
  destruct (respond w OpExit); reflexivity.
Qed.

Lemma run_outcome w :
  page_acquired w ->
  snd (verify_home_text_removed w) =
  match respond w OpExit with
  | Some e' => Raise e'
  | None => snd (guarded w)
  end.
Proof.
  intros H. use_acquired H.
  unfold verify_home_text_removed, with_scope, acquire.
  autorewrite with run. rewrite Hen, Hla, Hcx, Hpg. simpl.
  destruct (respond w OpExit); reflexivity.
Qed.

(** ** Observations and concatenation *)

Lemma count_calls_app p t1 t2 :
  count_calls p (t1 ++ t2) = count_calls p t1 + count_calls p t2.
Proof. unfold count_calls. now rewrite filter_app, length_app. Qed.

Lemma written_app path t1 t2 :
  written path (t1 ++ t2) = written path t1 || written path t2.
Proof. apply existsb_app. Qed.

Lemma failure_logged_app t1 t2 :
  failure_logged (t1 ++ t2) = failure_logged t1 || failure_logged t2.
Proof. apply existsb_app. Qed.

Lemma printed_app s t1 t2 :
  printed s (t1 ++ t2) = printed s t1 || printed s t2.
Proof. apply existsb_app. Qed.

(** The main sequence, call by call. *)
Lemma main_trace w :
  fst (main_sequence w) =
  Stdout "Navigating to home page..." ::
  Call (OpGoto home_url) (respond w (OpGoto home_url)) ::
  match respond w (OpGoto home_url) with
  | Some _ => []
  | None =>
      fst (landing_step w) ++
      Stdout "Waiting for Home page content..." ::
      Call op_heading (respond w op_heading) ::
      match respond w op_heading with
      | Some _ => []
      | None =>
          Stdout "Verifying text removal..." ::
          Call op_text (respond w op_text) ::
          match respond w op_text with
          | Some _ => []
          | None =>
              Stdout "Taking screenshot..." ::
              Call op_home_shot (respond w op_home_shot) ::
              match respond w op_home_shot with
              | Some _ => []
              | None => [Stdout "Verification complete."]
              end
          end
      end
  end.
Proof.
  pose proof (landing_step_ok w) as Hl.
  unfold main_sequence. autorewrite with run. rewrite Hl. simpl.
  destruct (respond w (OpGoto home_url)); [reflexivity |]. simpl.
  f_equal. f_equal. f_equal. f_equal.
  responses; reflexivity.
Qed.

(** Which call raised what, read off the trace of the main sequence. *)
Lemma main_raised w o e :
  In (Call o (Some e)) (fst (main_sequence w)) ->
  respond w o = Some e /\
  (o = op_wait \/ o = op_click \/ In o main_steps).
Proof.
  rewrite main_trace, landing_trace. intros H.
  destruct (respond w (OpGoto home_url)) eqn:Eg;
  destruct (respond w op_wait) eqn:Ew;
  destruct (respond w op_click) eqn:Ec;
  destruct (respond w op_heading) eqn:Eh;
  destruct (respond w op_text) eqn:Et;
  destruct (respond w op_home_shot) eqn:Es;
  simpl in H;
  repeat match type of H with
         | _ \/ _ => destruct H as [H | H]
         end;
  try contradiction; try discriminate;
  injection H as <- <-; simpl; auto 10.
Qed.

Lemma failed_line_prefix e :
  String.prefix "Verification failed: " (failed_line e) = true.
Proof. unfold failed_line. simpl. destruct (str e); reflexivity. Qed.

(** The main sequence prints no failure line and writes no error
    screenshot of its own. *)
Lemma main_quiet w :
  failure_logged (fst (main_sequence w)) = false /\
  written error_png (fst (main_sequence w)) = false /\
  count_calls is_close (fst (main_sequence w)) = 0 /\
  count_calls is_exit (fst (main_sequence w)) = 0.
Proof.
  rewrite main_trace, landing_trace.
  destruct (respond w (OpGoto home_url)); [repeat split; reflexivity |].
  destruct (respond w op_wait), (respond w op_click),
    (respond w op_heading), (respond w op_text), (respond w op_home_shot);
    repeat split; reflexivity.
Qed.

(** ** The whole run, once the page is acquired *)

Lemma run_failure_logged w :
  page_acquired w ->
  failure_logged (fst (verify_home_text_removed w)) =
  match snd (main_sequence w) with
  | Ok _ => false
  | Raise e => is_Exception e
  end.
Proof.
  intros H. rewrite (run_trace w H), guarded_trace.
  rewrite !failure_logged_app. destruct (main_quiet w) as (-> & _).
  unfold handler_trace.
  destruct (snd (main_sequence w)) as [a | e]; [reflexivity |].
  destruct (is_Exception e); [| reflexivity].
  cbn [app failure_logged existsb orb]. now rewrite failed_line_prefix.
Qed.

Lemma run_error_written w :
  page_acquired w ->
  written error_png (fst (verify_home_text_removed w)) =
  match snd (main_sequence w), respond w op_error_shot with
  | Raise e, None => is_Exception e
  | _, _ => false
  end.
Proof.
  intros H. rewrite (run_trace w H), guarded_trace.
  rewrite !written_app. destruct (main_quiet w) as (_ & -> & _).
  unfold handler_trace.
  destruct (snd (main_sequence w)) as [a | e];
    [destruct (respond w op_error_shot); reflexivity |].
  destruct (is_Exception e), (respond w op_error_shot); reflexivity.
Qed.

(** [browser.close()] is called once whatever the [try] did. *)
Lemma run_closes w :
  page_acquired w ->
  count_calls is_close (fst (verify_home_text_removed w)) = 1.
Proof.
  intros H. rewrite (run_trace w H), guarded_trace.
  rewrite !count_calls_app. destruct (main_quiet w) as (_ & _ & -> & _).
  unfold handler_trace.
  destruct (snd (main_sequence w)) as [a | e]; [reflexivity |].
  destruct (is_Exception e); reflexivity.
Qed.

Lemma run_exits w :
  page_acquired w ->
  count_calls is_exit (fst (verify_home_text_removed w)) = 1.
Proof.
  intros H. rewrite (run_trace w H), guarded_trace.
  rewrite !count_calls_app. destruct (main_quiet w) as (_ & _ & _ & ->).
  unfold handler_trace.
  destruct (snd (main_sequence w)) as [a | e]; [reflexivity |].
  destruct (is_Exception e); reflexivity.
Qed.

(** An error of one of the main steps leaves the main sequence. *)
Lemma main_step_escapes w o e :
  In o main_steps ->
  In (Call o (Some e)) (fst (main_sequence w)) ->
  snd (main_sequence w) = Raise e.
Proof.
  rewrite main_trace, landing_trace, main_outcome. intros Ho H.
  unfold main_steps, first_raise.
  destruct (respond w (OpGoto home_url)) eqn:Eg;
  destruct (respond w op_wait) eqn:Ew;
  destruct (respond w op_click) eqn:Ec;
  destruct (respond w op_heading) eqn:Eh;
  destruct (respond w op_text) eqn:Et;
  destruct (respond w op_home_shot) eqn:Es;
  simpl in H;
  repeat match type of H with
         | _ \/ _ => destruct H as [H | H]
         end;
  try contradiction; try discriminate;
  injection H as <- <-; try reflexivity;
  simpl in Ho; intuition discriminate.
Qed.

(** * Errors of the landing step and errors of the main steps *)

(** C1, as the script has it.  Inside the optional landing step every
    error is swallowed by the bare [except:], whether it comes from the
    5000 ms wait or from the click and whatever its class: the
    alternate-path line is printed and the heading check still runs.  An
    error of navigation, of either assertion or of the success
    screenshot is not swallowed locally: it leaves the main sequence,
    and the failure handler logs it exactly when it is an instance of
    [Exception]. *)
Theorem landing_errors_swallowed_main_errors_escape w o e :
  page_acquired w ->
  In (Call o (Some e)) (fst (main_sequence w)) ->
  if is_landing_op o
  then snd (landing_step w) = Ok tt /\
       printed landing_missed (fst (main_sequence w)) = true /\
       In (Call op_heading (respond w op_heading)) (fst (main_sequence w))
  else snd (main_sequence w) = Raise e /\
       failure_logged (fst (verify_home_text_removed w)) = is_Exception e.
Proof.
  intros Hacq Hin.
  destruct (main_raised w o e Hin) as [Hr [-> | [-> | Ho]]].
  - simpl. split; [apply landing_step_ok |].
    revert Hin. rewrite main_trace, landing_trace.
    destruct (respond w (OpGoto home_url)) eqn:Eg.
    + simpl. intros [H | [H | []]]; discriminate.
    + intros _. rewrite Hr. split.
      * reflexivity.
      * simpl. auto 10.
  - simpl. split; [apply landing_step_ok |].
    revert Hin. rewrite main_trace, landing_trace.
    destruct (respond w (OpGoto home_url)) eqn:Eg.
    + simpl. intros [H | [H | []]]; discriminate.
    + rewrite Hr. destruct (respond w op_wait) eqn:Ew.
      * simpl. intros [H | [H | [H | [H | [H | H]]]]]; try discriminate.
        destruct (respond w op_heading), (respond w op_text),
          (respond w op_home_shot); simpl in H;
          repeat match type of H with
                 | _ \/ _ => destruct H as [H | H]
                 end; try contradiction; discriminate.
      * intros _. split; [reflexivity |]. simpl. auto 10.
  - assert (is_landing_op o = false) as ->
      by (simpl in Ho; intuition subst; reflexivity).
    pose proof (main_step_escapes w o e Ho Hin) as Hesc.
    split; [exact Hesc |].
    rewrite (run_failure_logged w Hacq), Hesc. reflexivity.
Qed.

(** C1, the claim as worded, fails: the click on the landing button
    raises an error that is not a timeout, and the run still ends
    normally, with the success screenshot and no failure line. *)
Lemma click_error_is_swallowed :
  In (Call op_click (Some crash)) (fst (verify_home_text_removed w_click_fails)) /\
  exn_cls crash <> TimeoutError /\
  snd (verify_home_text_removed w_click_fails) = Ok tt /\
  failure_logged (fst (verify_home_text_removed w_click_fails)) = false /\
  written error_png (fst (verify_home_text_removed w_click_fails)) = false /\
  written home_png (fst (verify_home_text_removed w_click_fails)) = true.
Proof.
  repeat split; try reflexivity; try discriminate.
  vm_compute. auto 20.
Qed.

Lemma landing_errors_swallowed_main_errors_escape_witness :
  page_acquired w_click_fails /\
  In (Call op_click (Some crash)) (fst (main_sequence w_click_fails)) /\
  snd (landing_step w_click_fails) = Ok tt /\
  page_acquired w_unreachable /\
  In (Call (OpGoto home_url) (Some refused)) (fst (main_sequence w_unreachable)) /\
  snd (main_sequence w_unreachable) = Raise refused /\
  failure_logged (fst (verify_home_text_removed w_unreachable)) = true.
Proof.
  assert (Ha : page_acquired w_click_fails) by (repeat split; reflexivity).
  assert (Hb : In (Call op_click (Some crash)) (fst (main_sequence w_click_fails)))
    by (vm_compute; auto 10).
  assert (Hc : page_acquired w_unreachable) by (repeat split; reflexivity).
  assert (Hd : In (Call (OpGoto home_url) (Some refused))
                  (fst (main_sequence w_unreachable)))
    by (vm_compute; auto 10).
  pose proof (landing_errors_swallowed_main_errors_escape
                w_click_fails op_click crash Ha Hb) as H1.
  pose proof (landing_errors_swallowed_main_errors_escape
                w_unreachable (OpGoto home_url) refused Hc Hd) as H2.
  simpl in H1, H2.
  repeat split; try assumption; try apply H1; try apply H2.
Defined.

(** * The failure handler *)

(** C2, as the script has it.  An error [e] of class [Exception] that
    leaves the main sequence is logged, then the diagnostic screenshot
    is asked for, then the browser is closed.  When the screenshot call
    returns, [verification_error.png] is written and [e] itself reaches
    the caller; when the screenshot call raises, nothing is written and
    its error reaches the caller in place of [e]. *)
Theorem handler_logs_captures_reraises w e :
  page_acquired w ->
  cleanup_completes w ->
  snd (main_sequence w) = Raise e ->
  is_Exception e = true ->
  fst (verify_home_text_removed w) =
    acquired_prefix ++ fst (main_sequence w) ++
    [Stdout (failed_line e); Call op_error_shot (respond w op_error_shot);
     Call OpClose None; Call OpExit None] /\
  match respond w op_error_shot with
  | None =>
      written error_png (fst (verify_home_text_removed w)) = true /\
      snd (verify_home_text_removed w) = Raise e
  | Some e' =>
      written error_png (fst (verify_home_text_removed w)) = false /\
      snd (verify_home_text_removed w) = Raise e'
  end.
Proof.
  intros Hacq [Hcl Hex] Hmain Hexn.
  rewrite (run_error_written w Hacq), (run_outcome w Hacq), guarded_outcome.
  rewrite (run_trace w Hacq), guarded_trace.
  unfold handled_outcome, handler_trace.
  rewrite Hcl, Hex, Hmain, Hexn. split.
  - now rewrite <- !app_assoc.
  - destruct (respond w op_error_shot); split; reflexivity.
Qed.

(** C2, the claim as worded, fails: navigation raises, the handler's own
    screenshot raises in turn, and the caller receives the second error,
    with no diagnostic screenshot on disk. *)
Lemma handler_error_replaces_original :
  snd (main_sequence w_crashed) = Raise refused /\
  is_Exception refused = true /\
  failure_logged (fst (verify_home_text_removed w_crashed)) = true /\
  written error_png (fst (verify_home_text_removed w_crashed)) = false /\
  count_calls is_close (fst (verify_home_text_removed w_crashed)) = 1 /\
  snd (verify_home_text_removed w_crashed) = Raise crash /\
  crash <> refused.
Proof. repeat split; try reflexivity; discriminate. Qed.

Lemma handler_logs_captures_reraises_witness :
  page_acquired w_unreachable /\
  cleanup_completes w_unreachable /\
  snd (main_sequence w_unreachable) = Raise refused /\
  is_Exception refused = true /\
  written error_png (fst (verify_home_text_removed w_unreachable)) = true /\
  snd (verify_home_text_removed w_unreachable) = Raise refused.
Proof.
  assert (Ha : page_acquired w_unreachable) by (repeat split; reflexivity).
  assert (Hc : cleanup_completes w_unreachable) by (split; reflexivity).
  assert (Hm : snd (main_sequence w_unreachable) = Raise refused)
    by reflexivity.
  assert (He : is_Exception refused = true) by reflexivity.
  pose proof (handler_logs_captures_reraises w_unreachable refused
                Ha Hc Hm He) as [_ H].
  change (respond w_unreachable op_error_shot) with (@None exn) in H.
  destruct H as [Hw Hr].
  repeat split; assumption.
Defined.

(** * Release of the browser *)

(** C3, as the script has it.  Once the browser is launched,
    [browser.close()] is called exactly once when the context and the
    page are acquired, whatever the [try] block then does, and not at
    all when [new_context] or [new_page] raises: both calls stand before
    the [try].  The [with] block is left once in either case. *)
Theorem close_once_after_page_acquired w :
  launched w ->
  count_calls is_close (fst (verify_home_text_removed w)) =
    match respond w OpNewContext, respond w OpNewPage with
    | None, None => 1
    | _, _ => 0
    end /\
  count_calls is_exit (fst (verify_home_text_removed w)) = 1.
Proof.
  intros Hl.
  destruct (respond w OpNewContext) eqn:Ecx.
  - destruct Hl as [Hen Hla]. script. rewrite Hen, Hla, Ecx. simpl.
    destruct (respond w OpExit); split; reflexivity.
  - destruct (respond w OpNewPage) eqn:Epg.
    + destruct Hl as [Hen Hla]. script. rewrite Hen, Hla, Ecx, Epg. simpl.
      destruct (respond w OpExit); split; reflexivity.
    + assert (Hacq : page_acquired w) by (repeat split; solve [apply Hl | assumption]).
      split; [apply run_closes | apply run_exits]; exact Hacq.
Qed.

(** C3, the claim as worded, fails: the browser is launched, creating
    the browsing context raises, and [browser.close()] is never
    called. *)
Lemma context_error_skips_close :
  In (Call (OpLaunch true) None) (fst (verify_home_text_removed w_no_context)) /\
  In (Call OpNewContext (Some crash)) (fst (verify_home_text_removed w_no_context)) /\
  count_calls is_close (fst (verify_home_text_removed w_no_context)) = 0 /\
  snd (verify_home_text_removed w_no_context) = Raise crash.
Proof. repeat split; try reflexivity; vm_compute; auto 10. Qed.

Lemma close_once_after_page_acquired_witness :
  launched w_text_shown /\
  count_calls is_close (fst (verify_home_text_removed w_text_shown)) = 1 /\
  count_calls is_exit (fst (verify_home_text_removed w_text_shown)) = 1.
Proof.
  assert (Hl : launched w_text_shown) by (split; reflexivity).
  split; [exact Hl |].
  exact (close_once_after_page_acquired w_text_shown Hl).
Defined.

(** * Page conditions in a steady world *)

Lemma steady_respond w o :
  steady w -> is_landing_op o = false -> respond w o = page_response w o.
Proof. intros Hs Ho. unfold respond. now rewrite (Hs o Ho). Qed.

Lemma steady_acquired w : steady w -> page_acquired w.
Proof. intros Hs. repeat split; now rewrite steady_respond. Qed.

Lemma steady_navigated w : steady w -> navigated w.
Proof.
  intros Hs. split; [now apply steady_acquired | now rewrite steady_respond].
Qed.

Lemma steady_cleanup w : steady w -> cleanup_completes w.
Proof. intros Hs. split; now rewrite steady_respond. Qed.

Lemma steady_heading w :
  steady w ->
  respond w op_heading =
  if is_visible (observe w heading) then None else Some expected_visible.
Proof. intros Hs. now rewrite steady_respond. Qed.

Lemma steady_text w :
  steady w ->
  respond w op_text =
  if is_visible (observe w removed_text) then Some expected_not_visible else None.
Proof. intros Hs. now rewrite steady_respond. Qed.

Lemma not_visible v : v <> Visible -> is_visible v = false.
Proof. destruct v; [reflexivity | reflexivity | congruence]. Qed.

Lemma handler_no_home w : written home_png (handler_trace w) = false.
Proof.
  unfold handler_trace. destruct (snd (main_sequence w)) as [a | e]; [reflexivity |].
  destruct (is_Exception e); [| reflexivity].
  destruct (respond w op_error_shot); reflexivity.
Qed.

Lemma main_home_written w :
  written home_png (fst (main_sequence w)) =
  match snd (main_sequence w) with Ok _ => true | Raise _ => false end.
Proof.
  rewrite main_outcome, main_trace, landing_trace.
  unfold first_raise, main_steps.
  destruct (respond w (OpGoto home_url)); [reflexivity |].
  destruct (respond w op_wait), (respond w op_click),
    (respond w op_heading), (respond w op_text), (respond w op_home_shot);
    reflexivity.
Qed.

(** The success screenshot is on disk exactly when the main sequence
    ended normally. *)
Lemma run_home_written w :
  page_acquired w ->
  written home_png (fst (verify_home_text_removed w)) =
  match snd (main_sequence w) with Ok _ => true | Raise _ => false end.
Proof.
  intros H. rewrite (run_trace w H), guarded_trace, !written_app.
  rewrite handler_no_home, main_home_written.
  destruct (snd (main_sequence w)), (respond w OpClose), (respond w OpExit);
    reflexivity.
Qed.

(** The outcome of a run whose page was acquired and whose cleanup
    returns is what left the handler. *)
Lemma run_outcome_clean w :
  page_acquired w -> cleanup_completes w ->
  snd (verify_home_text_removed w) = handled_outcome w.
Proof.
  intros Ha [Hcl Hex]. now rewrite (run_outcome w Ha), guarded_outcome, Hex, Hcl.
Qed.

(** Whatever the main sequence did is part of the run. *)
Lemma main_event_in_run w ev :
  page_acquired w ->
  In ev (fst (main_sequence w)) ->
  In ev (fst (verify_home_text_removed w)).
Proof.
  intros Ha Hin. rewrite (run_trace w Ha), guarded_trace.
  apply in_or_app; right. apply in_or_app; left. apply in_or_app; left.
  exact Hin.
Qed.

(** C4.  In a steady world, when the heading shows within its 15000 ms
    and the removed text is not visible, the run ends without error and
    [verification_home.png] is written (and no error screenshot). *)
Theorem heading_shown_text_gone_succeeds w :
  steady w ->
  observe w heading = Visible ->
  observe w removed_text <> Visible ->
  snd (verify_home_text_removed w) = Ok tt /\
  written home_png (fst (verify_home_text_removed w)) = true /\
  In (Call op_home_shot None) (fst (verify_home_text_removed w)) /\
  written error_png (fst (verify_home_text_removed w)) = false.
Proof.
  intros Hs Hh Ht.
  pose proof (steady_acquired w Hs) as Ha.
  assert (Hm : snd (main_sequence w) = Ok tt).
  { rewrite main_outcome. unfold first_raise, main_steps.
    rewrite (steady_heading w Hs), (steady_text w Hs), Hh, (not_visible _ Ht).
    rewrite !steady_respond by (auto || reflexivity). reflexivity. }
  rewrite (run_outcome_clean w Ha (steady_cleanup w Hs)).
  rewrite (run_home_written w Ha), (run_error_written w Ha).
  unfold handled_outcome. rewrite Hm.
  split; [reflexivity |]. split; [reflexivity |].
  split; [| destruct (respond w op_error_shot); reflexivity].
  apply (main_event_in_run w _ Ha). rewrite main_trace.
  rewrite (steady_heading w Hs), (steady_text w Hs), Hh, (not_visible _ Ht).
  rewrite !(steady_respond w (OpGoto home_url)) by (auto || reflexivity).
  rewrite !(steady_respond w op_home_shot) by (auto || reflexivity).
  simpl. right; right. apply in_or_app; right. simpl. auto 10.
Qed.

Lemma heading_shown_text_gone_succeeds_witness :
  steady w_home /\
  observe w_home heading = Visible /\
  observe w_home removed_text <> Visible /\
  snd (verify_home_text_removed w_home) = Ok tt /\
  written home_png (fst (verify_home_text_removed w_home)) = true.
Proof.
  assert (Hs : steady w_home) by (intros o _; reflexivity).
  assert (Hh : observe w_home heading = Visible) by reflexivity.
  assert (Ht : observe w_home removed_text <> Visible) by (simpl; discriminate).
  destruct (heading_shown_text_gone_succeeds w_home Hs Hh Ht) as (H1 & H2 & _).
  repeat split; assumption.
Defined.

(** The run as a program, for any interpreter that ends with status 0
    when the program ends normally and with another status when an
    [Exception] is left uncaught. *)
Section Program.

Variable status : result unit -> Z.
Hypothesis status_normal : status (Ok tt) = 0%Z.
Hypothesis status_uncaught :
  forall e, is_Exception e = true -> status (Raise e) <> 0%Z.

(** C5, as the script has it.  When the heading check is reached and
    the heading does not show within its 15000 ms, the assertion error
    leaves the main sequence and is logged, and no success screenshot is
    written.  When the diagnostic screenshot call returns,
    [verification_error.png] is written, that assertion error reaches
    the caller and the program ends with a status other than 0; when
    the screenshot call raises, nothing is written and its error is the
    one that reaches the caller.  A run that ends normally gives
    status 0. *)
Theorem heading_missing_fails w :
  navigated w ->
  cleanup_completes w ->
  fault w op_heading = None ->
  observe w heading <> Visible ->
  snd (main_sequence w) = Raise expected_visible /\
  failure_logged (fst (verify_home_text_removed w)) = true /\
  written home_png (fst (verify_home_text_removed w)) = false /\
  match respond w op_error_shot with
  | None =>
      written error_png (fst (verify_home_text_removed w)) = true /\
      snd (verify_home_text_removed w) = Raise expected_visible /\
      main status w <> 0%Z
  | Some e' =>
      written error_png (fst (verify_home_text_removed w)) = false /\
      snd (verify_home_text_removed w) = Raise e' /\
      (is_Exception e' = true -> main status w <> 0%Z)
  end /\
  (forall w', snd (verify_home_text_removed w') = Ok tt -> main status w' = 0%Z).
Proof.
  intros [Ha Hg] Hc Hf Hh.
  assert (Hhd : respond w op_heading = Some expected_visible).
  { unfold respond. rewrite Hf. simpl. now rewrite (not_visible _ Hh). }
  assert (Hm : snd (main_sequence w) = Raise expected_visible).
  { rewrite main_outcome. unfold first_raise, main_steps. now rewrite Hg, Hhd. }
  split; [exact Hm |].
  split; [rewrite (run_failure_logged w Ha), Hm; reflexivity |].
  split; [rewrite (run_home_written w Ha), Hm; reflexivity |].
  split.
  - unfold main.
    rewrite (run_error_written w Ha), (run_outcome_clean w Ha Hc).
    unfold handled_outcome. rewrite Hm. simpl.
    destruct (respond w op_error_shot) as [e' |].
    + split; [reflexivity |]. split; [reflexivity |]. apply status_uncaught.
    + split; [reflexivity |]. split; [reflexivity |].
      apply status_uncaught. reflexivity.
  - intros w' Hok. unfold main. rewrite Hok. exact status_normal.
Qed.

End Program.

(** C5, the claim as worded, fails: the heading does not show, the
    assertion error is logged, the handler's own screenshot raises, and
    the run ends with that second error and no
    [verification_error.png]. *)
Lemma heading_missing_no_error_png :
  observe w_no_heading_crashed heading <> Visible /\
  respond w_no_heading_crashed op_heading = Some expected_visible /\
  failure_logged (fst (verify_home_text_removed w_no_heading_crashed)) = true /\
  written error_png (fst (verify_home_text_removed w_no_heading_crashed)) = false /\
  snd (verify_home_text_removed w_no_heading_crashed) = Raise crash /\
  crash <> expected_visible.
Proof.
  split; [simpl; discriminate |].
  split; [reflexivity |]. split; [reflexivity |]. split; [reflexivity |].
  split; [reflexivity | discriminate].
Qed.

Lemma heading_missing_fails_witness :
  sample_status (Ok tt) = 0%Z /\
  (forall e, is_Exception e = true -> sample_status (Raise e) <> 0%Z) /\
  navigated w_no_heading /\
  cleanup_completes w_no_heading /\
  fault w_no_heading op_heading = None /\
  observe w_no_heading heading <> Visible /\
  written error_png (fst (verify_home_text_removed w_no_heading)) = true /\
  snd (verify_home_text_removed w_no_heading) = Raise expected_visible /\
  main sample_status w_no_heading <> 0%Z.
Proof.
  assert (H0 : sample_status (Ok tt) = 0%Z) by reflexivity.
  assert (H1 : forall e, is_Exception e = true -> sample_status (Raise e) <> 0%Z)
    by (intros e _; simpl; discriminate).
  assert (Hn : navigated w_no_heading) by (repeat split; reflexivity).
  assert (Hc : cleanup_completes w_no_heading) by (split; reflexivity).
  assert (Hf : fault w_no_heading op_heading = None) by reflexivity.
  assert (Hh : observe w_no_heading heading <> Visible) by (simpl; discriminate).
  pose proof (heading_missing_fails sample_status H0 H1 w_no_heading
                Hn Hc Hf Hh) as (_ & _ & _ & Hshot & _).
  change (respond w_no_heading op_error_shot) with (@None exn) in Hshot.
  destruct Hshot as (Hw & Hr & Hs).
  split; [exact H0 |]. split; [exact H1 |]. split; [exact Hn |].
  split; [exact Hc |]. split; [exact Hf |]. split; [exact Hh |].
  split; [exact Hw |]. split; [exact Hr | exact Hs].
Defined.

(** * The optional landing step *)

(** C6.  When the landing step is reached and the 5000 ms wait for the
    'Start Learning' button returns (the button showed), the button is
    clicked exactly once in the run, and the heading check comes after
    that click and not before it. *)
Theorem button_shown_clicked_once w :
  navigated w ->
  respond w op_wait = None ->
  count_calls is_click (fst (verify_home_text_removed w)) = 1 /\
  In (Call op_click (respond w op_click)) (fst (verify_home_text_removed w)) /\
  all_after (is_call_of is_click) (is_call_of is_heading_check)
    (fst (verify_home_text_removed w)) = true.
Proof.
  intros [Ha Hg] Hw.
  rewrite (run_trace w Ha), guarded_trace, main_trace, landing_trace.
  unfold handler_trace. rewrite main_outcome. unfold first_raise, main_steps.
  rewrite Hg, Hw.
  destruct (respond w op_click) as [ec |];
    (destruct (respond w op_heading) as [e |];
       [destruct (is_Exception e); repeat split; simpl; auto 20 |]);
    (destruct (respond w op_text) as [e |];
       [destruct (is_Exception e); repeat split; simpl; auto 20 |]);
    (destruct (respond w op_home_shot) as [e |];
       [destruct (is_Exception e); repeat split; simpl; auto 20 |]);
    repeat split; simpl; auto 20.
Qed.

Lemma button_shown_clicked_once_witness :
  navigated w_landing /\
  respond w_landing op_wait = None /\
  count_calls is_click (fst (verify_home_text_removed w_landing)) = 1.
Proof.
  assert (Hn : navigated w_landing) by (repeat split; reflexivity).
  assert (Hw : respond w_landing op_wait = None) by reflexivity.
  destruct (button_shown_clicked_once w_landing Hn Hw) as (H1 & _).
  repeat split; assumption.
Defined.

(** C7.  When the landing step is reached and the button is absent or
    does not show within 5000 ms, the wait raises, no click is made in
    the run, and between the failed wait and the heading check the
    script only prints its two progress lines. *)
Theorem button_missing_no_click w :
  navigated w ->
  observe w start_btn <> Visible ->
  count_calls is_click (fst (verify_home_text_removed w)) = 0 /\
  exists e t1,
    respond w op_wait = Some e /\
    fst (verify_home_text_removed w) =
      acquired_prefix ++
      [Stdout "Navigating to home page..."; Call (OpGoto home_url) None;
       Call op_wait (Some e); Stdout landing_missed; Stdout waiting_line;
       Call op_heading (respond w op_heading)] ++ t1.
Proof.
  intros [Ha Hg] Hb.
  destruct (respond w op_wait) as [e |] eqn:Ew;
    [| apply wait_returns_iff in Ew; destruct Ew as [Ew _]; contradiction].
  split.
  - rewrite (run_trace w Ha), guarded_trace, main_trace, landing_trace.
    unfold handler_trace. rewrite main_outcome. unfold first_raise, main_steps.
    rewrite Hg, Ew.
    (destruct (respond w op_heading) as [e0 |];
       [destruct (is_Exception e0); reflexivity |]);
    (destruct (respond w op_text) as [e0 |];
       [destruct (is_Exception e0); reflexivity |]);
    (destruct (respond w op_home_shot) as [e0 |];
       [destruct (is_Exception e0); reflexivity |]);
    reflexivity.
  - exists e,
      (after_heading w ++ handler_trace w ++
       [Call OpClose (respond w OpClose)] ++ [Call OpExit (respond w OpExit)]).
    split; [reflexivity |].
    rewrite (run_trace w Ha), guarded_trace, main_trace, landing_trace.
    rewrite Hg, Ew. unfold after_heading. simpl.
    now rewrite <- !app_assoc.
Qed.

Lemma button_missing_no_click_witness :
  navigated w_home /\
  observe w_home start_btn <> Visible /\
  count_calls is_click (fst (verify_home_text_removed w_home)) = 0.
Proof.
  assert (Hn : navigated w_home) by (repeat split; reflexivity).
  assert (Hb : observe w_home start_btn <> Visible) by (simpl; discriminate).
  destruct (button_missing_no_click w_home Hn Hb) as (H1 & _).
  repeat split; assumption.
Defined.

Example heading_after_click_landing :
  all_after (is_call_of is_click) (is_call_of is_heading_check)
    (fst (verify_home_text_removed w_landing)) = true.
Proof. reflexivity. Qed.

Example no_click_on_home :
  all_after (is_call_of is_click) (is_call_of is_heading_check)
    (fst (verify_home_text_removed w_home)) = false.
Proof. reflexivity. Qed.

(** * The removed text *)

(** C8.  In a steady world where the heading has shown, the check on
    the removed text passes when no such element exists and when one
    exists but is hidden, and the run fails exactly when the text is
    visible. *)
Theorem text_check_fails_iff_visible w :
  steady w ->
  observe w heading = Visible ->
  (observe w removed_text = Absent -> respond w op_text = None) /\
  (observe w removed_text = Hidden -> respond w op_text = None) /\
  (observe w removed_text = Visible ->
   respond w op_heading = None /\
   snd (verify_home_text_removed w) = Raise expected_not_visible) /\
  (snd (verify_home_text_removed w) <> Ok tt <->
   observe w removed_text = Visible).
Proof.
  intros Hs Hh.
  pose proof (steady_acquired w Hs) as Ha.
  pose proof (steady_text w Hs) as Ht.
  pose proof (steady_heading w Hs) as Hhd. rewrite Hh in Hhd. simpl in Hhd.
  assert (Hout : snd (verify_home_text_removed w) =
                 if is_visible (observe w removed_text)
                 then Raise expected_not_visible else Ok tt).
  { rewrite (run_outcome_clean w Ha (steady_cleanup w Hs)).
    unfold handled_outcome. rewrite main_outcome.
    unfold first_raise, main_steps. rewrite Hhd, Ht.
    rewrite !steady_respond by (auto || reflexivity). simpl.
    destruct (is_visible (observe w removed_text)); reflexivity. }
  rewrite Hout, Ht.
  destruct (observe w removed_text); simpl; repeat split;
    try discriminate; try congruence; auto.
Qed.

Lemma text_check_fails_iff_visible_witness :
  steady w_text_shown /\
  observe w_text_shown heading = Visible /\
  snd (verify_home_text_removed w_text_shown) <> Ok tt /\
  steady w_home /\
  observe w_home heading = Visible /\
  respond w_home op_text = None.
Proof.
  assert (Hs : steady w_text_shown) by (intros o _; reflexivity).
  assert (Hh : observe w_text_shown heading = Visible) by reflexivity.
  assert (Hs' : steady w_home) by (intros o _; reflexivity).
  assert (Hh' : observe w_home heading = Visible) by reflexivity.
  destruct (text_check_fails_iff_visible w_text_shown Hs Hh)
    as (_ & _ & _ & Hiff).
  destruct (text_check_fails_iff_visible w_home Hs' Hh') as (_ & Hhid & _).
  split; [exact Hs |]. split; [exact Hh |].
  split; [apply Hiff; reflexivity |].
  split; [exact Hs' |]. split; [exact Hh' |].
  apply Hhid. reflexivity.
Defined.

(** * The two screenshots *)

(** A screenshot on disk means that the [try] was entered. *)
Lemma written_acquired w path :
  written path (fst (verify_home_text_removed w)) = true -> page_acquired w.
Proof.
  destruct (respond w OpEnter) eqn:Een;
    [script; rewrite Een; discriminate |].
  destruct (respond w (OpLaunch true)) eqn:Ela;
    [script; rewrite Een, Ela; simpl; destruct (respond w OpExit); discriminate |].
  destruct (respond w OpNewContext) eqn:Ecx;
    [script; rewrite Een, Ela, Ecx; simpl; destruct (respond w OpExit);
     discriminate |].
  destruct (respond w OpNewPage) eqn:Epg;
    [script; rewrite Een, Ela, Ecx, Epg; simpl; destruct (respond w OpExit);
     discriminate |].
  intros _. repeat split; assumption.
Qed.

(** When the main sequence ends normally, both assertions passed and the
    success screenshot follows them. *)
Lemma main_ok_trace w :
  snd (main_sequence w) = Ok tt ->
  exists t0,
    fst (main_sequence w) =
    t0 ++ [Call op_heading None; Stdout "Verifying text removal...";
           Call op_text None; Stdout "Taking screenshot...";
           Call op_home_shot None; Stdout "Verification complete."].
Proof.
  rewrite main_outcome, main_trace. unfold first_raise, main_steps.
  destruct (respond w (OpGoto home_url)); [discriminate |].
  destruct (respond w op_heading); [discriminate |].
  destruct (respond w op_text); [discriminate |].
  destruct (respond w op_home_shot); [discriminate |]. intros _.
  exists ([Stdout "Navigating to home page..."; Call (OpGoto home_url) None] ++
          fst (landing_step w) ++ [Stdout waiting_line]).
  simpl. now rewrite <- app_assoc.
Qed.

(** C9.  No run writes both screenshots.  [verification_home.png] is
    written only when the main sequence ended normally, after the
    heading check and the text check both passed;
    [verification_error.png] is written only by the failure handler, for
    an [Exception] that left the main sequence. *)
Theorem at_most_one_screenshot w :
  written home_png (fst (verify_home_text_removed w)) &&
  written error_png (fst (verify_home_text_removed w)) = false /\
  (written home_png (fst (verify_home_text_removed w)) = true ->
   snd (main_sequence w) = Ok tt /\
   exists t0,
     fst (main_sequence w) =
     t0 ++ [Call op_heading None; Stdout "Verifying text removal...";
            Call op_text None; Stdout "Taking screenshot...";
            Call op_home_shot None; Stdout "Verification complete."]) /\
  (written error_png (fst (verify_home_text_removed w)) = true ->
   failure_logged (fst (verify_home_text_removed w)) = true /\
   exists e, snd (main_sequence w) = Raise e /\ is_Exception e = true).
Proof.
  assert (Hhome : written home_png (fst (verify_home_text_removed w)) = true ->
                  snd (main_sequence w) = Ok tt).
  { intros H. pose proof (written_acquired w _ H) as Ha.
    rewrite (run_home_written w Ha) in H.
    destruct (snd (main_sequence w)) as [[] | e]; [reflexivity | discriminate]. }
  assert (Herr : written error_png (fst (verify_home_text_removed w)) = true ->
                 failure_logged (fst (verify_home_text_removed w)) = true /\
                 exists e, snd (main_sequence w) = Raise e /\ is_Exception e = true).
  { intros H. pose proof (written_acquired w _ H) as Ha.
    rewrite (run_error_written w Ha) in H.
    rewrite (run_failure_logged w Ha).
    destruct (snd (main_sequence w)) as [a | e]; [discriminate |].
    destruct (respond w op_error_shot); [discriminate |].
    split; [exact H | exists e; auto]. }
  split; [| split].
  - destruct (written home_png (fst (verify_home_text_removed w))) eqn:E1;
      [| reflexivity].
    destruct (written error_png (fst (verify_home_text_removed w))) eqn:E2;
      [| reflexivity].
    destruct (Herr eq_refl) as (_ & e & He & _).
    rewrite (Hhome eq_refl) in He. discriminate.
  - intros H. split; [auto |]. apply main_ok_trace. auto.
  - exact Herr.
Qed.

(** * Errors outside [Exception] *)

(** C10.  An error that is not an instance of [Exception], raised by
    navigation, by either assertion or by the success screenshot, skips
    the failure handler: no error screenshot, no failure line.  The
    browser is still closed, once and right after the main sequence, and
    that error reaches the caller. *)
Theorem base_exception_skips_handler w o e :
  page_acquired w ->
  cleanup_completes w ->
  In o main_steps ->
  In (Call o (Some e)) (fst (main_sequence w)) ->
  is_Exception e = false ->
  written error_png (fst (verify_home_text_removed w)) = false /\
  failure_logged (fst (verify_home_text_removed w)) = false /\
  count_calls is_close (fst (verify_home_text_removed w)) = 1 /\
  fst (verify_home_text_removed w) =
    acquired_prefix ++ fst (main_sequence w) ++
    [Call OpClose None; Call OpExit None] /\
  snd (verify_home_text_removed w) = Raise e.
Proof.
  intros Ha Hc Ho Hin He.
  pose proof (main_step_escapes w o e Ho Hin) as Hm.
  rewrite (run_error_written w Ha), (run_failure_logged w Ha).
  rewrite (run_outcome_clean w Ha Hc), (run_closes w Ha).
  rewrite (run_trace w Ha), guarded_trace.
  unfold handled_outcome, handler_trace. rewrite Hm, He.
  destruct Hc as [-> ->].
  repeat split; try reflexivity.
  - destruct (respond w op_error_shot); reflexivity.
  - simpl. now rewrite <- app_assoc.
Qed.

Lemma base_exception_skips_handler_witness :
  page_acquired w_interrupted /\
  cleanup_completes w_interrupted /\
  In (OpGoto home_url) main_steps /\
  In (Call (OpGoto home_url) (Some interrupt)) (fst (main_sequence w_interrupted)) /\
  is_Exception interrupt = false /\
  count_calls is_close (fst (verify_home_text_removed w_interrupted)) = 1 /\
  snd (verify_home_text_removed w_interrupted) = Raise interrupt.
Proof.
  assert (Ha : page_acquired w_interrupted) by (repeat split; reflexivity).
  assert (Hc : cleanup_completes w_interrupted) by (split; reflexivity).
  assert (Ho : In (OpGoto home_url) main_steps) by (simpl; auto).
  assert (Hin : In (Call (OpGoto home_url) (Some interrupt))
                   (fst (main_sequence w_interrupted)))
    by (vm_compute; auto).
  assert (He : is_Exception interrupt = false) by reflexivity.
  destruct (base_exception_skips_handler w_interrupted _ _ Ha Hc Ho Hin He)
    as (_ & _ & H3 & _ & H5).
  repeat split; assumption.
Defined.

(** * Beyond the claims: the run as a whole *)

(** A run that did not get its page leaves nothing but acquisition
    events, and does not end normally. *)
Lemma not_acquired_cases w :
  page_acquired w \/
  (snd (verify_home_text_removed w) <> Ok tt /\
   forall ev, In ev (fst (verify_home_text_removed w)) ->
              is_frame_event ev = true /\ is_call_of is_close ev = false).
Proof.
  destruct (respond w OpEnter) eqn:Een.
  { right. script. rewrite Een. simpl. split; [discriminate |].
    intros ev [<- | []]. split; reflexivity. }
  destruct (respond w (OpLaunch true)) eqn:Ela.
  { right. script. rewrite Een, Ela. simpl.
    destruct (respond w OpExit); (split; [discriminate |]);
      intros ev [<- | [<- | [<- | []]]]; split; reflexivity. }
  destruct (respond w OpNewContext) eqn:Ecx.
  { right. script. rewrite Een, Ela, Ecx. simpl.
    destruct (respond w OpExit); (split; [discriminate |]);
      intros ev [<- | [<- | [<- | [<- | []]]]]; split; reflexivity. }
  destruct (respond w OpNewPage) eqn:Epg.
  { right. script. rewrite Een, Ela, Ecx, Epg. simpl.
    destruct (respond w OpExit); (split; [discriminate |]);
      intros ev [<- | [<- | [<- | [<- | [<- | []]]]]]; split; reflexivity. }
  left. repeat split; assumption.
Qed.

Lemma ok_acquired w :
  snd (verify_home_text_removed w) = Ok tt -> page_acquired w.
Proof.
  intros H. destruct (not_acquired_cases w) as [Ha | [Hn _]]; [exact Ha |].
  contradiction.
Qed.

(** The outcome of a run whose page was acquired, in full. *)
Lemma run_outcome_full w :
  page_acquired w ->
  snd (verify_home_text_removed w) =
  match respond w OpExit with
  | Some e2 => Raise e2
  | None =>
      match respond w OpClose with
      | Some e1 => Raise e1
      | None => handled_outcome w
      end
  end.
Proof. intros Ha. now rewrite (run_outcome w Ha), guarded_outcome. Qed.

(** X1.  A run ends normally exactly when every call outside the
    landing step returns: entering Playwright, launch, context, page,
    navigation, both assertions, the success screenshot, the close and
    the exit.  What the wait and the click do is not among the
    conditions. *)
Theorem run_succeeds_iff w :
  snd (verify_home_text_removed w) = Ok tt <->
  (forall o, In o required_steps -> respond w o = None).
Proof.
  split.
  - intros H. pose proof (ok_acquired w H) as Ha.
    rewrite (run_outcome_full w Ha) in H. unfold handled_outcome in H.
    rewrite main_outcome in H. unfold first_raise, main_steps in H.
    use_acquired Ha.
    destruct (respond w OpExit) eqn:Eex; [discriminate |].
    destruct (respond w OpClose) eqn:Ecl; [discriminate |].
    destruct (respond w (OpGoto home_url)) as [e |] eqn:Eg;
      [destruct (is_Exception e), (respond w op_error_shot); discriminate |].
    destruct (respond w op_heading) as [e |] eqn:Eh;
      [destruct (is_Exception e), (respond w op_error_shot); discriminate |].
    destruct (respond w op_text) as [e |] eqn:Et;
      [destruct (is_Exception e), (respond w op_error_shot); discriminate |].
    destruct (respond w op_home_shot) as [e |] eqn:Es;
      [destruct (is_Exception e), (respond w op_error_shot); discriminate |].
    intros o Ho. simpl in Ho.
    repeat match type of Ho with
           | _ \/ _ => destruct Ho as [<- | Ho]
           end; try assumption; contradiction.
  - intros H.
    assert (Ha : page_acquired w) by (repeat split; apply H; simpl; auto 10).
    rewrite (run_outcome_full w Ha). unfold handled_outcome.
    rewrite main_outcome. unfold first_raise, main_steps.
    rewrite !H by (simpl; auto 20). reflexivity.
Qed.

(** X2.  An error of [browser.close()] replaces whatever the [try]
    produced: a run whose checks all passed and whose success screenshot
    is on disk still ends with that error. *)
Theorem close_error_fails_passed_run w e1 :
  page_acquired w ->
  snd (main_sequence w) = Ok tt ->
  respond w OpClose = Some e1 ->
  respond w OpExit = None ->
  snd (verify_home_text_removed w) = Raise e1 /\
  written home_png (fst (verify_home_text_removed w)) = true /\
  written error_png (fst (verify_home_text_removed w)) = false /\
  failure_logged (fst (verify_home_text_removed w)) = false.
Proof.
  intros Ha Hm Hcl Hex.
  rewrite (run_outcome_full w Ha), Hex, Hcl.
  rewrite (run_home_written w Ha), (run_error_written w Ha).
  rewrite (run_failure_logged w Ha), Hm.
  repeat split.
Qed.

Lemma close_error_fails_passed_run_witness :
  page_acquired w_close_fails /\
  snd (main_sequence w_close_fails) = Ok tt /\
  respond w_close_fails OpClose = Some crash /\
  respond w_close_fails OpExit = None /\
  snd (verify_home_text_removed w_close_fails) = Raise crash /\
  written home_png (fst (verify_home_text_removed w_close_fails)) = true.
Proof.
  assert (Ha : page_acquired w_close_fails) by (repeat split; reflexivity).
  assert (Hm : snd (main_sequence w_close_fails) = Ok tt) by reflexivity.
  assert (Hc : respond w_close_fails OpClose = Some crash) by reflexivity.
  assert (He : respond w_close_fails OpExit = None) by reflexivity.
  destruct (close_error_fails_passed_run w_close_fails crash Ha Hm Hc He)
    as (H1 & H2 & _).
  split; [exact Ha |]. split; [exact Hm |]. split; [exact Hc |].
  split; [exact He |]. split; assumption.
Defined.

Lemma first_raise_agree w1 w2 ops :
  (forall o, In o ops -> respond w1 o = respond w2 o) ->
  first_raise w1 ops = first_raise w2 ops.
Proof.
  induction ops as [| o ops IH]; intros H; [reflexivity |]. simpl.
  rewrite (H o) by (simpl; auto).
  destruct (respond w2 o); [reflexivity |].
  apply IH. intros o' Ho'. apply H. simpl; auto.
Qed.

Lemma agree_acquired w1 w2 :
  agree_outside_landing w1 w2 -> page_acquired w1 -> page_acquired w2.
Proof.
  intros Hag Ha. use_acquired Ha.
  repeat split; rewrite <- Hag by reflexivity; assumption.
Qed.

Lemma agree_sym w1 w2 :
  agree_outside_landing w1 w2 -> agree_outside_landing w2 w1.
Proof. intros H o Ho. symmetry. now apply H. Qed.

Lemma agree_main w1 w2 :
  agree_outside_landing w1 w2 ->
  snd (main_sequence w1) = snd (main_sequence w2).
Proof.
  intros Hag. rewrite !main_outcome. apply first_raise_agree.
  intros o Ho. apply Hag. simpl in Ho. intuition subst; reflexivity.
Qed.

Lemma written_not_acquired w path :
  ~ page_acquired w ->
  written path (fst (verify_home_text_removed w)) = false.
Proof.
  intros Hn. destruct (written path (fst (verify_home_text_removed w))) eqn:E;
    [| reflexivity].
  apply written_acquired in E. contradiction.
Qed.

Lemma page_acquired_dec w : {page_acquired w} + {~ page_acquired w}.
Proof.
  destruct (respond w OpEnter) eqn:Een;
    [right; intros [[H _] _]; congruence |].
  destruct (respond w (OpLaunch true)) eqn:Ela;
    [right; intros [[_ H] _]; congruence |].
  destruct (respond w OpNewContext) eqn:Ecx;
    [right; intros [_ [H _]]; congruence |].
  destruct (respond w OpNewPage) eqn:Epg;
    [right; intros [_ [_ H]]; congruence |].
  left. repeat split; assumption.
Defined.

(** The outcome of any run, by the responses it met. *)
Lemma run_outcome_general w :
  snd (verify_home_text_removed w) =
  match respond w OpEnter with
  | Some e => Raise e
  | None =>
      match respond w OpExit with
      | Some e2 => Raise e2
      | None =>
          match first_raise w [OpLaunch true; OpNewContext; OpNewPage] with
          | Raise e => Raise e
          | Ok _ => snd (guarded w)
          end
      end
  end.
Proof.
  unfold verify_home_text_removed, with_scope, acquire. autorewrite with run.
  unfold first_raise.
  destruct (respond w OpEnter); [reflexivity |].
  destruct (respond w OpExit), (respond w (OpLaunch true)),
    (respond w OpNewContext), (respond w OpNewPage); reflexivity.
Qed.

(** X3.  The landing step never decides a run: two worlds that answer
    alike outside the wait and the click end with the same outcome and
    leave the same screenshots, whether the button showed, the click
    failed or the wait was interrupted. *)
Theorem landing_step_never_decides w1 w2 :
  agree_outside_landing w1 w2 ->
  snd (verify_home_text_removed w1) = snd (verify_home_text_removed w2) /\
  written home_png (fst (verify_home_text_removed w1)) =
    written home_png (fst (verify_home_text_removed w2)) /\
  written error_png (fst (verify_home_text_removed w1)) =
    written error_png (fst (verify_home_text_removed w2)).
Proof.
  intros Hag. split.
  - rewrite !run_outcome_general, !guarded_outcome. unfold handled_outcome.
    rewrite (agree_main w1 w2 Hag).
    rewrite (first_raise_agree w1 w2 [OpLaunch true; OpNewContext; OpNewPage])
      by (intros o Ho; apply Hag; simpl in Ho; intuition subst; reflexivity).
    rewrite !(Hag OpEnter), !(Hag OpExit), !(Hag OpClose), !(Hag op_error_shot)
      by reflexivity.
    reflexivity.
  - destruct (page_acquired_dec w1) as [Ha1 | Hn1].
    + pose proof (agree_acquired w1 w2 Hag Ha1) as Ha2.
      rewrite !(run_home_written _ Ha1), !(run_home_written _ Ha2).
      rewrite !(run_error_written _ Ha1), !(run_error_written _ Ha2).
      rewrite (agree_main w1 w2 Hag), !(Hag op_error_shot) by reflexivity.
      split; reflexivity.
    + assert (Hn2 : ~ page_acquired w2)
        by (intros Ha2; apply Hn1;
            exact (agree_acquired w2 w1 (agree_sym _ _ Hag) Ha2)).
      rewrite !(written_not_acquired w1), !(written_not_acquired w2) by assumption.
      split; reflexivity.
Qed.

Lemma landing_step_never_decides_witness :
  agree_outside_landing w_landing w_click_fails /\
  snd (verify_home_text_removed w_landing) =
    snd (verify_home_text_removed w_click_fails).
Proof.
  assert (Hag : agree_outside_landing w_landing w_click_fails).
  { intros o Ho. destruct o; try discriminate Ho; reflexivity. }
  split; [exact Hag |].
  exact (proj1 (landing_step_never_decides w_landing w_click_fails Hag)).
Defined.

(** A failure line means that the [try] was entered. *)
Lemma failure_logged_acquired w :
  failure_logged (fst (verify_home_text_removed w)) = true -> page_acquired w.
Proof.
  destruct (respond w OpEnter) eqn:Een;
    [script; rewrite Een; discriminate |].
  destruct (respond w (OpLaunch true)) eqn:Ela;
    [script; rewrite Een, Ela; simpl; destruct (respond w OpExit); discriminate |].
  destruct (respond w OpNewContext) eqn:Ecx;
    [script; rewrite Een, Ela, Ecx; simpl; destruct (respond w OpExit);
     discriminate |].
  destruct (respond w OpNewPage) eqn:Epg;
    [script; rewrite Een, Ela, Ecx, Epg; simpl; destruct (respond w OpExit);
     discriminate |].
  intros _. repeat split; assumption.
Qed.

(** X4.  The failure handler never swallows: a run that printed a
    "Verification failed" line ends with an error, whatever the
    diagnostic screenshot, the close and the exit then do. *)
Theorem logged_failure_never_returns w :
  failure_logged (fst (verify_home_text_removed w)) = true ->
  (exists e, snd (verify_home_text_removed w) = Raise e) /\
  (exists e0, snd (main_sequence w) = Raise e0 /\ is_Exception e0 = true).
Proof.
  intros H. pose proof (failure_logged_acquired w H) as Ha.
  rewrite (run_failure_logged w Ha) in H.
  rewrite (run_outcome_full w Ha). unfold handled_outcome.
  destruct (snd (main_sequence w)) as [a | e0]; [discriminate |].
  rewrite H. split; [| exists e0; auto].
  destruct (respond w OpExit), (respond w OpClose), (respond w op_error_shot);
    eexists; reflexivity.
Qed.

Lemma logged_failure_never_returns_witness :
  failure_logged (fst (verify_home_text_removed w_crashed)) = true /\
  exists e, snd (verify_home_text_removed w_crashed) = Raise e.
Proof.
  assert (H : failure_logged (fst (verify_home_text_removed w_crashed)) = true)
    by reflexivity.
  split; [exact H |].
  exact (proj1 (logged_failure_never_returns w_crashed H)).
Defined.

(** X5.  When the close and the exit return, [verification_home.png] is
    on disk exactly when the run ended normally. *)
Theorem home_png_iff_success w :
  cleanup_completes w ->
  (written home_png (fst (verify_home_text_removed w)) = true <->
   snd (verify_home_text_removed w) = Ok tt).
Proof.
  intros Hc. split; intros H.
  - pose proof (written_acquired w _ H) as Ha.
    rewrite (run_home_written w Ha) in H.
    rewrite (run_outcome_clean w Ha Hc). unfold handled_outcome.
    destruct (snd (main_sequence w)) as [[] | e]; [reflexivity | discriminate].
  - pose proof (ok_acquired w H) as Ha.
    rewrite (run_outcome_clean w Ha Hc) in H. unfold handled_outcome in H.
    rewrite (run_home_written w Ha).
    destruct (snd (main_sequence w)) as [a | e]; [reflexivity |].
    destruct (is_Exception e), (respond w op_error_shot); discriminate.
Qed.

Lemma home_png_iff_success_witness :
  cleanup_completes w_text_shown /\
  written home_png (fst (verify_home_text_removed w_text_shown)) = false /\
  snd (verify_home_text_removed w_text_shown) <> Ok tt.
Proof.
  assert (Hc : cleanup_completes w_text_shown) by (split; reflexivity).
  split; [exact Hc |]. split; [reflexivity |].
  intros Hok.
  pose proof (proj2 (home_png_iff_success w_text_shown Hc) Hok) as Hw.
  discriminate Hw.
Defined.

(** An event that is not of the frame comes from the main sequence. *)
Lemma run_event_origin w ev :
  In ev (fst (verify_home_text_removed w)) ->
  is_frame_event ev = false ->
  page_acquired w /\ In ev (fst (main_sequence w)).
Proof.
  intros Hin Hf.
  destruct (not_acquired_cases w) as [Ha | [_ Hall]];
    [| destruct (Hall ev Hin) as [Hfr _]; congruence].
  split; [exact Ha |].
  rewrite (run_trace w Ha), guarded_trace in Hin.
  apply in_app_or in Hin. destruct Hin as [Hin | Hin].
  { simpl in Hin. intuition subst; discriminate. }
  apply in_app_or in Hin. destruct Hin as [Hin | Hin];
    [| simpl in Hin; intuition subst; discriminate].
  apply in_app_or in Hin. destruct Hin as [Hin | Hin]; [exact Hin |].
  apply in_app_or in Hin. destruct Hin as [Hin | Hin];
    [| simpl in Hin; intuition subst; discriminate].
  unfold handler_trace in Hin.
  destruct (snd (main_sequence w)) as [a | e]; [contradiction |].
  destruct (is_Exception e); [| contradiction].
  destruct Hin as [<- | [<- | []]].
  - unfold is_frame_event in Hf. rewrite failed_line_prefix in Hf. discriminate.
  - discriminate.
Qed.

(** X6.  The checks run strictly in order: the heading check is made
    only after navigation returned, the check on the removed text only
    after the heading check passed, and the success screenshot is asked
    for only after both checks passed. *)
Theorem checks_run_in_order w r :
  (In (Call op_heading r) (fst (verify_home_text_removed w)) ->
   respond w (OpGoto home_url) = None) /\
  (In (Call op_text r) (fst (verify_home_text_removed w)) ->
   respond w (OpGoto home_url) = None /\ respond w op_heading = None) /\
  (In (Call op_home_shot r) (fst (verify_home_text_removed w)) ->
   respond w (OpGoto home_url) = None /\ respond w op_heading = None /\
   respond w op_text = None).
Proof.
  assert (Hmain : forall o,
             In (Call o r) (fst (main_sequence w)) ->
             (o = op_heading -> respond w (OpGoto home_url) = None) /\
             (o = op_text ->
              respond w (OpGoto home_url) = None /\ respond w op_heading = None) /\
             (o = op_home_shot ->
              respond w (OpGoto home_url) = None /\ respond w op_heading = None /\
              respond w op_text = None)).
  { intros o. rewrite main_trace, landing_trace.
    destruct (respond w (OpGoto home_url)) eqn:Eg;
    destruct (respond w op_wait) eqn:Ew;
    destruct (respond w op_click) eqn:Ec;
    destruct (respond w op_heading) eqn:Eh;
    destruct (respond w op_text) eqn:Et;
    destruct (respond w op_home_shot) eqn:Es;
    simpl; intros Hin;
    repeat match type of Hin with
           | _ \/ _ => destruct Hin as [Hin | Hin]
           end;
    try contradiction; try discriminate;
    injection Hin as <- _; repeat split; intros; try discriminate; reflexivity. }
  split; [| split]; intros H;
    (apply run_event_origin in H; [| reflexivity]);
    destruct H as [_ H]; apply Hmain in H;
    destruct H as (H1 & H2 & H3);
    [apply H1 | apply H2 | apply H3]; reflexivity.
Qed.

Lemma main_printed_in_run w s :
  page_acquired w ->
  printed s (fst (main_sequence w)) = true ->
  printed s (fst (verify_home_text_removed w)) = true.
Proof.
  intros Ha H. rewrite (run_trace w Ha), guarded_trace, !printed_app, H.
  now rewrite orb_true_r.
Qed.

(** X7.  When the button showed and the click on it raises, the log
    carries both landing lines, "detected" and then "not detected", and
    the run goes on to the heading check. *)
Theorem failed_click_logs_both_lines w e :
  navigated w ->
  respond w op_wait = None ->
  respond w op_click = Some e ->
  printed landing_detected (fst (verify_home_text_removed w)) = true /\
  printed landing_missed (fst (verify_home_text_removed w)) = true /\
  In (Call op_heading (respond w op_heading)) (fst (verify_home_text_removed w)).
Proof.
  intros [Ha Hg] Hw Hc.
  assert (Hm : exists t1,
             fst (main_sequence w) =
             [Stdout "Navigating to home page..."; Call (OpGoto home_url) None;
              Call op_wait None; Stdout landing_detected;
              Call op_click (Some e); Stdout landing_missed;
              Stdout waiting_line; Call op_heading (respond w op_heading)] ++ t1).
  { rewrite main_trace, landing_trace, Hg, Hw, Hc. eexists. reflexivity. }
  destruct Hm as [t1 Hm].
  split; [| split].
  - apply main_printed_in_run; [exact Ha |]. rewrite Hm. reflexivity.
  - apply main_printed_in_run; [exact Ha |]. rewrite Hm. reflexivity.
  - apply main_event_in_run; [exact Ha |]. rewrite Hm. simpl. auto 10.
Qed.

Lemma failed_click_logs_both_lines_witness :
  navigated w_click_fails /\
  respond w_click_fails op_wait = None /\
  respond w_click_fails op_click = Some crash /\
  printed landing_detected (fst (verify_home_text_removed w_click_fails)) = true /\
  printed landing_missed (fst (verify_home_text_removed w_click_fails)) = true.
Proof.
  assert (Hn : navigated w_click_fails) by (repeat split; reflexivity).
  assert (Hw : respond w_click_fails op_wait = None) by reflexivity.
  assert (Hc : respond w_click_fails op_click = Some crash) by reflexivity.
  destruct (failed_click_logs_both_lines w_click_fails crash Hn Hw Hc)
    as (H1 & H2 & _).
  split; [exact Hn |]. split; [exact Hw |]. split; [exact Hc |].
  split; assumption.
Defined.

(** X8.  When entering [sync_playwright()] raises, nothing else is
    attempted, not even the exit of the block, and that error reaches
    the caller. *)
Theorem enter_failure_stops_everything w e :
  respond w OpEnter = Some e ->
  verify_home_text_removed w = ([Call OpEnter (Some e)], Raise e).
Proof.
  intros H. apply injective_projections.
  - script. rewrite H. reflexivity.
  - script. rewrite H. reflexivity.
Qed.

Lemma enter_failure_stops_everything_witness :
  respond w_no_playwright OpEnter = Some crash /\
  verify_home_text_removed w_no_playwright =
    ([Call OpEnter (Some crash)], Raise crash).
Proof.
  assert (H : respond w_no_playwright OpEnter = Some crash) by reflexivity.
  split; [exact H |].
  exact (enter_failure_stops_everything w_no_playwright crash H).
Defined.

(** X9.  When the launch raises, no page work is done and
    [browser.close()] is not called; the [with] block is left, and the
    launch error reaches the caller unless leaving the block raises in
    turn. *)
Theorem launch_failure_only_exits w e :
  respond w OpEnter = None ->
  respond w (OpLaunch true) = Some e ->
  fst (verify_home_text_removed w) =
    [Call OpEnter None; Call (OpLaunch true) (Some e);
     Call OpExit (respond w OpExit)] /\
  snd (verify_home_text_removed w) =
    match respond w OpExit with
    | Some e2 => Raise e2
    | None => Raise e
    end.
Proof.
  intros Hen Hla. script. rewrite Hen, Hla. simpl.
  destruct (respond w OpExit); split; reflexivity.
Qed.

Lemma launch_failure_only_exits_witness :
  respond w_no_launch OpEnter = None /\
  respond w_no_launch (OpLaunch true) = Some crash /\
  snd (verify_home_text_removed w_no_launch) = Raise crash.
Proof.
  assert (H1 : respond w_no_launch OpEnter = None) by reflexivity.
  assert (H2 : respond w_no_launch (OpLaunch true) = Some crash) by reflexivity.
  split; [exact H1 |]. split; [exact H2 |].
  exact (proj2 (launch_failure_only_exits w_no_launch crash H1 H2)).
Defined.

Lemma after_first_skip (p : event -> bool) t1 t2 :
  (forall ev, In ev t1 -> p ev = false) ->
  after_first p (t1 ++ t2) = after_first p t2.
Proof.
  induction t1 as [| ev t1 IH]; intros H; [reflexivity |]. simpl.
  rewrite (H ev) by (simpl; auto). apply IH.
  intros ev' Hin. apply H. simpl; auto.
Qed.

Lemma after_first_none (p : event -> bool) t :
  (forall ev, In ev t -> p ev = false) -> after_first p t = None.
Proof.
  intros H. rewrite <- (app_nil_r t). now rewrite after_first_skip.
Qed.

Lemma count_calls_none p t :
  count_calls p t = 0 -> forall ev, In ev t -> is_call_of p ev = false.
Proof.
  unfold count_calls. induction t as [| ev' t IH]; intros H ev Hin;
    [contradiction |].
  simpl in H. destruct (is_call_of p ev') eqn:E; [discriminate |].
  destruct Hin as [<- | Hin]; [exact E | now apply IH].
Qed.

(** X10.  Nothing is done with the browser once it is closed: in every
    run, what follows the call of [browser.close()] is the exit of the
    [with] block and nothing else. *)
Theorem nothing_after_close_but_exit w rest :
  after_first (is_call_of is_close) (fst (verify_home_text_removed w)) = Some rest ->
  rest = [Call OpExit (respond w OpExit)].
Proof.
  destruct (not_acquired_cases w) as [Ha | [_ Hall]].
  - rewrite (run_trace w Ha), guarded_trace.
    rewrite after_first_skip by (intros ev Hin; simpl in Hin;
                                 intuition subst; reflexivity).
    rewrite <- !app_assoc.
    rewrite after_first_skip
      by (apply count_calls_none; apply (main_quiet w)).
    rewrite after_first_skip.
    + simpl. now intros [= <-].
    + unfold handler_trace. intros ev Hin.
      destruct (snd (main_sequence w)) as [a | e]; [contradiction |].
      destruct (is_Exception e); [| contradiction].
      destruct Hin as [<- | [<- | []]]; reflexivity.
  - rewrite after_first_none; [discriminate |].
    intros ev Hin. apply (Hall ev Hin).
Qed.

Lemma nothing_after_close_but_exit_witness :
  after_first (is_call_of is_close) (fst (verify_home_text_removed w_crashed)) =
    Some [Call OpExit None] /\
  [Call OpExit None] = [Call OpExit (respond w_crashed OpExit)].
Proof.
  assert (H : after_first (is_call_of is_close)
                (fst (verify_home_text_removed w_crashed)) =
              Some [Call OpExit None]) by reflexivity.
  split; [exact H |].
  exact (nothing_after_close_but_exit w_crashed _ H).
Defined.

Lemma calls_app t1 t2 : calls (t1 ++ t2) = calls t1 ++ calls t2.
Proof.
  induction t1 as [| [l | o r] t1 IH]; simpl; [reflexivity | exact IH |].
  now rewrite IH.
Qed.

Ltac distinct_ops :=
  repeat (constructor; [simpl; intuition discriminate |]); constructor.

(** X11.  The script never retries: in every run each collaborator call
    is made at most once. *)
Theorem no_call_is_repeated w :
  NoDup (calls (fst (verify_home_text_removed w))).
Proof.
  destruct (respond w OpEnter) eqn:Een;
    [script; rewrite Een; simpl; distinct_ops |].
  destruct (respond w (OpLaunch true)) eqn:Ela;
    [script; rewrite Een, Ela; simpl; destruct (respond w OpExit);
     simpl; distinct_ops |].
  destruct (respond w OpNewContext) eqn:Ecx;
    [script; rewrite Een, Ela, Ecx; simpl; destruct (respond w OpExit);
     simpl; distinct_ops |].
  destruct (respond w OpNewPage) eqn:Epg;
    [script; rewrite Een, Ela, Ecx, Epg; simpl; destruct (respond w OpExit);
     simpl; distinct_ops |].
  assert (Ha : page_acquired w) by (repeat split; assumption).
  rewrite (run_trace w Ha), guarded_trace, main_trace, landing_trace.
  unfold handler_trace. rewrite main_outcome. unfold first_raise, main_steps.
  destruct (respond w (OpGoto home_url)) as [e |];
    [destruct (is_Exception e); simpl; distinct_ops |].
  destruct (respond w op_wait) as [ew |], (respond w op_click) as [ec |];
    (destruct (respond w op_heading) as [e |];
       [destruct (is_Exception e); simpl; distinct_ops |]);
    (destruct (respond w op_text) as [e |];
       [destruct (is_Exception e); simpl; distinct_ops |]);
    (destruct (respond w op_home_shot) as [e |];
       [destruct (is_Exception e); simpl; distinct_ops |]);
    simpl; distinct_ops.
Qed.
